(** * FocusTools API: the request handlers of [server/server.js]

    The server is an Express application with seven routes over two Mongoose
    models, [Task] and [Session].  Every handler has the same shape: read the
    request, validate, call the model, answer; a [try]/[catch] around the whole
    body turns any exception into a JSON error response.

    The development has four layers:
    - the JavaScript values that reach a handler (parsed JSON bodies, UTF-16
      strings, truthiness, [String.prototype.trim]);
    - exceptions and the store monad in which a handler body runs;
    - the handlers, written against an interface of the Mongoose calls they
      make ([Mongoose]);
    - an in-memory document store implementing that interface ([MemStore]),
      and the properties of the API. *)

From Stdlib Require Import ZArith NArith Ascii String List Floats.PrimFloat.
From stdpp Require Import base option list gmap.

Set Default Proof Using "Type".
Set Warnings "-register-all".

(** ** JavaScript strings

    A JavaScript string is a sequence of UTF-16 code units. *)

Abbreviation jsstr := (list N).

(** A source literal made of ASCII characters. *)
Definition lit (s : string) : jsstr :=
  List.map N_of_ascii (list_ascii_of_string s).

(** ECMAScript [WhiteSpace] and [LineTerminator] code points, the characters
    [String.prototype.trim] strips: TAB, LF, VT, FF, CR, SP, NBSP, the Unicode
    space separators (category Zs), LS, PS and the byte-order mark.  All of
    them lie in the Basic Multilingual Plane, so the test is on code units. *)
Definition is_whitespace (c : N) : bool :=
  ((9 <=? c) && (c <=? 13) ||
   (c =? 32) || (c =? 160) || (c =? 5760) ||
   (8192 <=? c) && (c <=? 8202) ||
   (c =? 8232) || (c =? 8233) || (c =? 8239) || (c =? 8287) ||
   (c =? 12288) || (c =? 65279))%N.

Fixpoint trimStart (s : jsstr) : jsstr :=
  match s with
  | c :: s' => if is_whitespace c then trimStart s' else s
  | [] => []
  end.

Definition trimEnd (s : jsstr) : jsstr := reverse (trimStart (reverse s)).

(** [String.prototype.trim] *)
Definition trim (s : jsstr) : jsstr := trimEnd (trimStart s).

(** Empty or made of white space only. *)
Definition blank (s : jsstr) : bool := forallb is_whitespace s.

(** ** JavaScript values

    [express.json()] hands the handlers the result of [JSON.parse]; an absent
    property reads as [undefined].  Numbers are IEEE 754 doubles. *)

Inductive JsValue : Type :=
| JUndefined
| JNull
| JBool (b : bool)
| JNum (x : float)
| JStr (s : jsstr)
| JArr (xs : list JsValue)
| JObj (props : list (jsstr * JsValue)).

(** ToBoolean: [undefined], [null], [false], [+0], [-0], [NaN] and the empty
    string are falsy, everything else (arrays and objects included) truthy. *)
Definition truthy (v : JsValue) : bool :=
  match v with
  | JUndefined | JNull => false
  | JBool b => b
  | JNum x => negb (PrimFloat.eqb x 0 || negb (PrimFloat.eqb x x))
  | JStr s => negb (bool_decide (s = []))
  | JArr _ | JObj _ => true
  end.

Definition nullish (v : JsValue) : bool :=
  match v with JUndefined | JNull => true | _ => false end.

Definition is_string (v : JsValue) : bool :=
  match v with JStr _ => true | _ => false end.

(** Own properties of a parsed object, first binding of a key. *)
Fixpoint own_prop (props : list (jsstr * JsValue)) (k : jsstr) : JsValue :=
  match props with
  | (k', v) :: rest => if bool_decide (k' = k) then v else own_prop rest k
  | [] => JUndefined
  end.

(** [v.k] for one of the keys the handlers read from a request body
    ([title], [completed], [taskId], [duration], [startTime]) on a value that
    is not [undefined] or [null]: none of these names is defined on a
    prototype, so only the own properties of an object can answer. *)
Definition prop (v : JsValue) (k : string) : JsValue :=
  match v with
  | JObj props => own_prop props (lit k)
  | _ => JUndefined
  end.

(** A parsed object whose keys are ASCII. *)
Definition obj (props : list (string * JsValue)) : JsValue :=
  JObj (List.map (λ p, (lit p.1, p.2)) props).

(** ** Exceptions *)

Record JsError := { name : jsstr; message : jsstr }.

Inductive Result (A : Type) : Type :=
| Ok (a : A)
| Throw (e : JsError).
Arguments Ok {A} a.
Arguments Throw {A} e.

Definition TypeError (msg : jsstr) : JsError :=
  {| name := lit "TypeError"; message := msg |}.

(** How V8 names the two values that have no properties. *)
Definition nullish_name (v : JsValue) : jsstr :=
  match v with JNull => lit "null" | _ => lit "undefined" end.

(** [const { k, ... } = e]: destructuring [undefined] or [null] throws. *)
Definition destructure (e k : string) (v : JsValue) : Result JsValue :=
  if nullish v
  then Throw (TypeError (lit "Cannot destructure property '" ++ lit k ++
                         lit "' of '" ++ lit e ++ lit "' as it is " ++
                         nullish_name v ++ lit "."))
  else Ok v.

(** [e.k]: reading a property of [undefined] or [null] throws. *)
Definition member (k : string) (v : JsValue) : Result JsValue :=
  if nullish v
  then Throw (TypeError (lit "Cannot read properties of " ++ nullish_name v ++
                         lit " (reading '" ++ lit k ++ lit "')"))
  else Ok (prop v k).

(** The method call [e.trim()], where [e] is the source text of the receiver.
    Only strings have a [trim] method: on [undefined] and [null] the property
    read throws, on every other value [e.trim] is not callable (a parsed JSON
    object may have a [trim] property, never a function). *)
Definition call_trim (e : string) (v : JsValue) : Result jsstr :=
  match v with
  | JStr s => Ok (trim s)
  | JUndefined | JNull =>
      Throw (TypeError (lit "Cannot read properties of " ++ nullish_name v ++
                        lit " (reading 'trim')"))
  | _ => Throw (TypeError (lit e ++ lit ".trim is not a function"))
  end.

(** ** Documents and responses *)

(** Identifiers are MongoDB ObjectIds: twelve bytes, read here as a number;
    clients see them as twenty-four hexadecimal digits. *)
Abbreviation ObjectId := N.

(** Modelled from the spec: the documents of the two models, whose schemas
    ([models/Task.js], [models/Session.js]) are missing; the fields are
    those of section 3. *)
Module Task.
Record doc := { _id : ObjectId; title : jsstr; completed : bool }.
End Task.

Module Session.
Record doc := {
  _id : ObjectId;
  taskId : ObjectId;
  duration : float;
  startTime : JsValue;
  completed : bool
}.
End Session.

(** The objects the handlers pass to [res.json]. *)
Inductive Json : Type :=
| error_json (error message : jsstr)
| task_json (task : Task.doc)
| tasks_json (tasks : list Task.doc)
| deleted_json (message : jsstr) (task : Task.doc)
| session_json (session : Session.doc)
| sessions_json (sessions : list (Session.doc * option Task.doc)).

Record Response := { status : Z; json : Json }.

(** [res.status(code).json(j)] *)
Definition respond (code : Z) (j : Json) : Response :=
  {| status := code; json := j |}.

(** ** The store monad

    A handler body is a sequence of awaited store calls, any of which may
    throw; the store is threaded through, and an exception leaves it as it
    was when the exception was raised. *)

Definition StoreM (S A : Type) : Type := S → Result A * S.

#[global] Instance StoreM_ret {S} : MRet (StoreM S) :=
  λ A a s, (Ok a, s).

#[global] Instance StoreM_bind {S} : MBind (StoreM S) :=
  λ A B f m s,
    match m s with
    | (Ok a, s') => f a s'
    | (Throw e, s') => (Throw e, s')
    end.

(** A computation of the runtime alone, which does not touch the store. *)
Definition pure {S A} (r : Result A) : StoreM S A := λ s, (r, s).

(** [try { body } catch (err) { handler }], where the handler answers. *)
Definition try_catch {S} (body : StoreM S Response)
    (handler : JsError → Response) : S → Response * S :=
  λ s,
    match body s with
    | (Ok r, s') => (r, s')
    | (Throw err, s') => (handler err, s')
    end.

(** ** The Mongoose calls of the handlers

    [models/Task.js], [models/Session.js] and Mongoose itself are not part of
    [server.js]; the handlers are written against what they call. *)

Class Mongoose (S : Type) := {
  (** [mongoose.Types.ObjectId.isValid(v)] *)
  isValid : JsValue → bool;
  (** [new Task({ title, completed }).save()] *)
  Task_save : JsValue → JsValue → StoreM S Task.doc;
  (** [Task.find()] *)
  Task_find : StoreM S (list Task.doc);
  (** [Task.findById(id)] *)
  Task_findById : JsValue → StoreM S (option Task.doc);
  (** [Task.findByIdAndUpdate(id, updates,
                              { new: true, runValidators: true })] *)
  Task_findByIdAndUpdate : JsValue → JsValue → StoreM S (option Task.doc);
  (** [Task.findByIdAndDelete(id)] *)
  Task_findByIdAndDelete : JsValue → StoreM S (option Task.doc);
  (** [new Session({ taskId, duration, startTime, completed }).save()] *)
  Session_save :
    JsValue → JsValue → JsValue → JsValue → StoreM S Session.doc;
  (** [Session.find().populate('taskId')] *)
  Session_find_populate : StoreM S (list (Session.doc * option Task.doc))
}.

(** ** The handlers *)

Section Handlers.
Context {S : Type} `{!Mongoose S}.

(** Number::toString of the runtime, reached only through a template
    literal. *)
Variable Number_toString : float → jsstr.

Definition join (sep : jsstr) (parts : list jsstr) : jsstr :=
  match parts with
  | [] => []
  | p :: ps => p ++ concat (List.map (λ q, sep ++ q) ps)
  end.

(** ToString, as a template literal applies it to a parsed JSON value. *)
Fixpoint ToString (v : JsValue) : jsstr :=
  match v with
  | JUndefined => lit "undefined"
  | JNull => lit "null"
  | JBool true => lit "true"
  | JBool false => lit "false"
  | JNum x => Number_toString x
  | JStr s => s
  | JArr xs =>
      join (lit ",")
        (List.map (λ x, if nullish x then [] else ToString x) xs)
  | JObj _ => lit "[object Object]"
  end.

(** The [catch] block of the three writing handlers. *)
Definition catch_validation (err : JsError) : Response :=
  if bool_decide (name err = lit "ValidationError")
  then respond 400 (error_json (lit "Validation error") (message err))
  else respond 500 (error_json (lit "Server error") (message err)).

(** The [catch] block of the reading handlers and of the delete. *)
Definition catch_server (err : JsError) : Response :=
  respond 500 (error_json (lit "Server error") (message err)).

(** [app.post('/api/tasks', ...)] *)
Definition post_tasks (body : JsValue) : S → Response * S :=
  try_catch
    (b ← pure (destructure "req.body" "title" body);
     let title := prop b "title" in
     let completed := prop b "completed" in
     invalid ← (if negb (truthy title) then mret true
                else t ← pure (call_trim "title" title);
                     mret (bool_decide (t = [])));
     if (invalid : bool) then
       mret (respond 400 (error_json (lit "Validation error")
                                     (lit "Title is required")))
     else
       t ← pure (call_trim "title" title);
       savedTask ← Task_save (JStr t)
                     (if truthy completed then completed else JBool false);
       mret (respond 201 (task_json savedTask)))
    catch_validation.

(** [app.get('/api/tasks', ...)] *)
Definition get_tasks : S → Response * S :=
  try_catch
    (tasks ← Task_find;
     mret (respond 200 (tasks_json tasks)))
    catch_server.

(** [app.get('/api/tasks/:id', ...)] *)
Definition get_task (id : jsstr) : S → Response * S :=
  try_catch
    (if negb (isValid (JStr id)) then
       mret (respond 404 (error_json (lit "Task not found")
                                     (lit "Invalid task ID format")))
     else
       task ← Task_findById (JStr id);
       match task with
       | None =>
           mret (respond 404
                   (error_json (lit "Task not found")
                      (lit "Task with ID " ++ id ++ lit " not found")))
       | Some task => mret (respond 200 (task_json task))
       end)
    catch_server.

(** [app.put('/api/tasks/:id', ...)] *)
Definition put_task (id : jsstr) (updates : JsValue) : S → Response * S :=
  try_catch
    (if negb (isValid (JStr id)) then
       mret (respond 404 (error_json (lit "Task not found")
                                     (lit "Invalid task ID format")))
     else
       title ← pure (member "title" updates);
       invalid ← (match title with
                  | JUndefined => mret false
                  | _ => t ← pure (call_trim "updates.title" title);
                         mret (bool_decide (t = []))
                  end);
       if (invalid : bool) then
         mret (respond 400 (error_json (lit "Validation error")
                                       (lit "Title cannot be empty")))
       else
         updatedTask ← Task_findByIdAndUpdate (JStr id) updates;
         match updatedTask with
         | None =>
             mret (respond 404 (error_json (lit "Task not found")
                                           (lit "Task not found")))
         | Some updatedTask => mret (respond 200 (task_json updatedTask))
         end)
    catch_validation.

(** [app.delete('/api/tasks/:id', ...)] *)
Definition delete_task (id : jsstr) : S → Response * S :=
  try_catch
    (if negb (isValid (JStr id)) then
       mret (respond 404 (error_json (lit "Task not found")
                                     (lit "Invalid task ID format")))
     else
       deletedTask ← Task_findByIdAndDelete (JStr id);
       match deletedTask with
       | None =>
           mret (respond 404 (error_json (lit "Task not found")
                                         (lit "Task not found")))
       | Some deletedTask =>
           mret (respond 200
                   (deleted_json (lit "Task deleted successfully")
                                 deletedTask))
       end)
    catch_server.

(** [completed !== undefined ? completed : true] *)
Definition completed_or_true (completed : JsValue) : JsValue :=
  match completed with
  | JUndefined => JBool true
  | _ => completed
  end.

(** [app.post('/api/sessions', ...)] *)
Definition post_sessions (body : JsValue) : S → Response * S :=
  try_catch
    (b ← pure (destructure "req.body" "taskId" body);
     let taskId := prop b "taskId" in
     let duration := prop b "duration" in
     let startTime := prop b "startTime" in
     let completed := prop b "completed" in
     if negb (truthy taskId) then
       mret (respond 400 (error_json (lit "Validation error")
                                     (lit "Task ID is required")))
     else if negb (truthy duration) then
       mret (respond 400 (error_json (lit "Validation error")
                                     (lit "Duration is required")))
     else if negb (truthy startTime) then
       mret (respond 400 (error_json (lit "Validation error")
                                     (lit "Start time is required")))
     else if negb (isValid taskId) then
       mret (respond 400 (error_json (lit "Validation error")
                                     (lit "Invalid task ID format")))
     else
       taskExists ← Task_findById taskId;
       match taskExists with
       | None =>
           mret (respond 400
                   (error_json (lit "Validation error")
                      (lit "Task with ID " ++ ToString taskId ++
                       lit " does not exist")))
       | Some _ =>
           savedSession ← Session_save taskId duration startTime
                            (completed_or_true completed);
           mret (respond 201 (session_json savedSession))
       end)
    catch_validation.

(** [app.get('/api/sessions', ...)] *)
Definition get_sessions : S → Response * S :=
  try_catch
    (sessions ← Session_find_populate;
     mret (respond 200 (sessions_json sessions)))
    catch_server.

End Handlers.

(** ** An in-memory document store *)

Module MemStore.

(** Modelled from the spec: the document store behind the two models
    (Mongoose and the database are external, [models/Task.js] and
    [models/Session.js] are missing).  Two collections keyed by the
    store-assigned identifier, and the next identifier to assign. *)
Record Store := {
  tasks : gmap N Task.doc;
  sessions : gmap N Session.doc;
  next_id : ObjectId
}.

(** The store before any request. *)
Definition initial : Store :=
  {| tasks := ∅; sessions := ∅; next_id := 0 |}.

Definition ValidationError (msg : jsstr) : JsError :=
  {| name := lit "ValidationError"; message := msg |}.

Definition CastError (msg : jsstr) : JsError :=
  {| name := lit "CastError"; message := msg |}.

Definition hex_digit (c : N) : option N :=
  if ((48 <=? c) && (c <=? 57))%N then Some (c - 48)%N
  else if ((97 <=? c) && (c <=? 102))%N then Some (c - 87)%N
  else if ((65 <=? c) && (c <=? 70))%N then Some (c - 55)%N
  else None.

Fixpoint parse_hex (acc : N) (s : jsstr) : option N :=
  match s with
  | [] => Some acc
  | c :: s' =>
      match hex_digit c with
      | Some d => parse_hex (16 * acc + d)%N s'
      | None => None
      end
  end.

(** Modelled from the spec: the identifier syntax, "a fixed-length
    hexadecimal token" (section 6); for an ObjectId, twenty-four
    hexadecimal digits. *)
Definition parse_oid (s : jsstr) : option ObjectId :=
  if bool_decide (length s = 24%nat) then parse_hex 0 s else None.

(** Modelled from the spec: [ObjectId.isValid], true of the strings in the
    identifier syntax. *)
Definition oid_isValid (v : JsValue) : bool :=
  match v with
  | JStr s => bool_decide (is_Some (parse_oid s))
  | _ => false
  end.

(** The store's reading of an identifier argument. *)
Definition cast_oid (v : JsValue) : Result ObjectId :=
  match v with
  | JStr s =>
      match parse_oid s with
      | Some k => Ok k
      | None => Throw (CastError (lit "Cast to ObjectId failed"))
      end
  | _ => Throw (CastError (lit "Cast to ObjectId failed"))
  end.

(** Modelled from the spec: the schema of [models/Task.js] (section 3):
    [title] is required text, [completed] a boolean.  The schema accepts
    any string as a title and stores it as it is: that a stored title is
    never blank is left to the handlers. *)
Definition cast_title (v : JsValue) : Result jsstr :=
  match v with
  | JStr s => Ok s
  | _ => Throw (ValidationError (lit "Task validation failed: title"))
  end.

Definition cast_completed (model : string) (v : JsValue) : Result bool :=
  match v with
  | JBool b => Ok b
  | _ => Throw (ValidationError (lit model ++
                                 lit " validation failed: completed"))
  end.

(** Modelled from the spec: the schema of [models/Session.js] (section 3):
    [taskId] an identifier, [duration] a number, [startTime] a timestamp
    (given as text or as a number), [completed] a boolean. *)
Definition cast_taskId (v : JsValue) : Result ObjectId :=
  match v with
  | JStr s =>
      match parse_oid s with
      | Some k => Ok k
      | None => Throw (ValidationError
                         (lit "Session validation failed: taskId"))
      end
  | _ => Throw (ValidationError (lit "Session validation failed: taskId"))
  end.

Definition cast_duration (v : JsValue) : Result float :=
  match v with
  | JNum x => Ok x
  | _ => Throw (ValidationError (lit "Session validation failed: duration"))
  end.

Definition cast_startTime (v : JsValue) : Result JsValue :=
  match v with
  | JStr _ | JNum _ => Ok v
  | _ => Throw (ValidationError (lit "Session validation failed: startTime"))
  end.

Definition with_tasks (ts : gmap N Task.doc) (s : Store) : Store :=
  {| tasks := ts; sessions := sessions s; next_id := next_id s |}.

(** Modelled from the spec: insert-with-generated-id of a Task. *)
Definition insert_task (title : jsstr) (completed : bool)
    : StoreM Store Task.doc :=
  λ s,
    let d := {| Task._id := next_id s; Task.title := title;
                Task.completed := completed |} in
    (Ok d, {| tasks := <[next_id s := d]> (tasks s);
              sessions := sessions s;
              next_id := N.succ (next_id s) |}).

Definition store_save_task (title completed : JsValue)
    : StoreM Store Task.doc :=
  t ← pure (cast_title title);
  c ← pure (cast_completed "Task" completed);
  insert_task t c.

(** Modelled from the spec: find-all. *)
Definition store_find_tasks : StoreM Store (list Task.doc) :=
  λ s, (Ok ((map_to_list (tasks s)).*2), s).

(** Modelled from the spec: find-by-id. *)
Definition lookup_task (k : ObjectId) : StoreM Store (option Task.doc) :=
  λ s, (Ok (tasks s !! k), s).

Definition store_find_task (id : JsValue) : StoreM Store (option Task.doc) :=
  k ← pure (cast_oid id);
  lookup_task k.

(** Modelled from the spec: the partial document of an update, "any subset
    of fields": a field that is present is validated and replaces the
    stored one, a field that is absent is kept.  Only the two fields
    are read; update operators are read by [Operators] below. *)
Definition apply_updates (t : Task.doc) (updates : JsValue)
    : Result Task.doc :=
  match
    match prop updates "title" with
    | JUndefined => Ok (Task.title t)
    | v => cast_title v
    end
  with
  | Throw e => Throw e
  | Ok title =>
      match
        match prop updates "completed" with
        | JUndefined => Ok (Task.completed t)
        | v => cast_completed "Task" v
        end
      with
      | Throw e => Throw e
      | Ok completed =>
          Ok {| Task._id := Task._id t; Task.title := title;
                Task.completed := completed |}
      end
  end.

(** Modelled from the spec: update-by-id-with-partial-document, answering
    the document after the update, or nothing when there is none. *)
Definition replace_task (k : ObjectId) (updates : JsValue)
    : StoreM Store (option Task.doc) :=
  λ s,
    match tasks s !! k with
    | None => (Ok None, s)
    | Some t =>
        match apply_updates t updates with
        | Throw e => (Throw e, s)
        | Ok t' => (Ok (Some t'), with_tasks (<[k := t']> (tasks s)) s)
        end
    end.

Definition store_update_task (id updates : JsValue)
    : StoreM Store (option Task.doc) :=
  k ← pure (cast_oid id);
  replace_task k updates.

(** Modelled from the spec: delete-by-id, answering the deleted document,
    or nothing when there is none. *)
Definition remove_task (k : ObjectId) : StoreM Store (option Task.doc) :=
  λ s,
    match tasks s !! k with
    | None => (Ok None, s)
    | Some t => (Ok (Some t), with_tasks (delete k (tasks s)) s)
    end.

Definition store_delete_task (id : JsValue) : StoreM Store (option Task.doc) :=
  k ← pure (cast_oid id);
  remove_task k.

(** Modelled from the spec: insert-with-generated-id of a Session. *)
Definition insert_session (taskId : ObjectId) (duration : float)
    (startTime : JsValue) (completed : bool) : StoreM Store Session.doc :=
  λ s,
    let d := {| Session._id := next_id s; Session.taskId := taskId;
                Session.duration := duration;
                Session.startTime := startTime;
                Session.completed := completed |} in
    (Ok d, {| tasks := tasks s;
              sessions := <[next_id s := d]> (sessions s);
              next_id := N.succ (next_id s) |}).

Definition store_save_session (taskId duration startTime completed : JsValue)
    : StoreM Store Session.doc :=
  k ← pure (cast_taskId taskId);
  x ← pure (cast_duration duration);
  t ← pure (cast_startTime startTime);
  c ← pure (cast_completed "Session" completed);
  insert_session k x t c.

(** Modelled from the spec: the reference-expansion read of the Sessions
    listing; a reference to a deleted Task is left unresolved. *)
Definition store_find_sessions
    : StoreM Store (list (Session.doc * option Task.doc)) :=
  λ s,
    (Ok ((λ d, (d, tasks s !! Session.taskId d))
           <$> (map_to_list (sessions s)).*2), s).

#[global] Instance mongoose : Mongoose Store := {|
  isValid := oid_isValid;
  Task_save := store_save_task;
  Task_find := store_find_tasks;
  Task_findById := store_find_task;
  Task_findByIdAndUpdate := store_update_task;
  Task_findByIdAndDelete := store_delete_task;
  Session_save := store_save_session;
  Session_find_populate := store_find_sessions
|}.

(** The answer and the store after the creation of a Task from a title [t]
    and a flag [b]. *)
Definition created (t : jsstr) (b : bool) (s : Store) : Response * Store :=
  let task := {| Task._id := next_id s; Task.title := trim t;
                 Task.completed := b |} in
  (respond 201 (task_json task),
   {| tasks := <[next_id s := task]> (tasks s);
      sessions := sessions s;
      next_id := N.succ (next_id s) |}).

(** No stored Task has an empty or white-space-only title. *)
Definition titles_not_blank (s : Store) : Prop :=
  map_Forall (λ _ t, blank (Task.title t) = false) (tasks s).

#[global] Instance titles_not_blank_dec (s : Store)
  : Decision (titles_not_blank s).
Proof. unfold titles_not_blank. apply _. Defined.

End MemStore.

(** ** Update documents

    Mongoose reads the second argument of [findByIdAndUpdate] as an update
    document: a key that starts with [$] is an update operator, of which
    [$set] assigns the fields of its argument; any other key is a field to
    set, and stands for a [$set] of that field, over which it wins.  The
    update handler forwards the request body as it came (lines 151-153), so
    a body may carry operators.  The store below is [MemStore] with an
    update that reads its argument this way. *)

Module Operators.
Import MemStore.

(** The value an update document sets a field to, [undefined] if none. *)
Definition set_field (updates : JsValue) (k : string) : JsValue :=
  match prop updates k with
  | JUndefined => prop (prop updates "$set") k
  | v => v
  end.

(** The fields an update document sets, as a partial document. *)
Definition fields_set (updates : JsValue) : JsValue :=
  obj [("title", set_field updates "title");
       ("completed", set_field updates "completed")]%string.

Definition store_update_task (id updates : JsValue)
    : StoreM Store (option Task.doc) :=
  k ← pure (cast_oid id);
  replace_task k (fields_set updates).

Definition mongoose : Mongoose Store := {|
  isValid := oid_isValid;
  Task_save := store_save_task;
  Task_find := store_find_tasks;
  Task_findById := store_find_task;
  Task_findByIdAndUpdate := store_update_task;
  Task_findByIdAndDelete := store_delete_task;
  Session_save := store_save_session;
  Session_find_populate := store_find_sessions
|}.

End Operators.

(** ** A scenario

    The requests of the end-to-end scenario of the specification and a few
    malformed ones, on which the properties below are run. *)

Module Scenario.
Import MemStore.

(** The store after [POST /api/tasks] of [{title: "Write spec"}]. *)
Definition write_spec : Task.doc :=
  {| Task._id := 0; Task.title := lit "Write spec";
     Task.completed := false |}.

Definition one_task : Store :=
  {| tasks := {[ 0%N := write_spec ]}; sessions := ∅; next_id := 1 |}.

(** The identifier of that Task, as clients write it. *)
Definition X : jsstr := lit "000000000000000000000000".

Definition start : JsValue := JStr (lit "2024-01-01T00:00:00Z").


Definition session_zero_duration : JsValue :=
  obj [("taskId", JStr X); ("duration", JNum 0);
       ("startTime", start)]%string.

Definition title_only (t : string) : JsValue :=
  obj [("title"%string, JStr (lit t))].

(** Number::toString is not modelled; the scenario formats no number. *)
Definition no_numbers : float → jsstr := λ _, [].

End Scenario.

(** ** The routes

    The seven [/api] routes the file registers with [app.post], [app.get],
    [app.put] and [app.delete], as the requests Express dispatches to
    them. *)

Inductive Request : Type :=
| POST_tasks (body : JsValue)
| GET_tasks
| GET_task (id : jsstr)
| PUT_task (id : jsstr) (updates : JsValue)
| DELETE_task (id : jsstr)
| POST_sessions (body : JsValue)
| GET_sessions.

Section Router.
Context {S : Type} `{!Mongoose S}.
Variable Number_toString : float → jsstr.

Definition handle (r : Request) : S → Response * S :=
  match r with
  | POST_tasks body => post_tasks body
  | GET_tasks => get_tasks
  | GET_task id => get_task id
  | PUT_task id updates => put_task id updates
  | DELETE_task id => delete_task id
  | POST_sessions body => post_sessions Number_toString body
  | GET_sessions => get_sessions
  end.

(** The store after a sequence of requests, served one after the other. *)
Definition handle_all (rs : list Request) (s : S) : S :=
  foldl (λ s r, (handle r s).2) s rs.

End Router.

(** An error answer: the given status with the given category. *)
Definition is_error (code : Z) (category : string) (r : Response) : bool :=
  match json r with
  | error_json error _ =>
      (status r =? code)%Z && bool_decide (error = lit category)
  | _ => false
  end.

(** A success answer: the given status with a body of the given kind. *)
Definition is_success (code : Z) (kind : Json → bool) (r : Response) : bool :=
  (status r =? code)%Z && kind (json r).

Definition is_task_json (j : Json) : bool :=
  match j with task_json _ => true | _ => false end.
Definition is_tasks_json (j : Json) : bool :=
  match j with tasks_json _ => true | _ => false end.
Definition is_deleted_json (j : Json) : bool :=
  match j with deleted_json _ _ => true | _ => false end.
Definition is_session_json (j : Json) : bool :=
  match j with session_json _ => true | _ => false end.
Definition is_sessions_json (j : Json) : bool :=
  match j with sessions_json _ => true | _ => false end.

(** The answers each route has in the source: its success, and the error
    statuses its body and its [catch] block can send. *)
Definition answer_of (req : Request) (r : Response) : bool :=
  match req with
  | POST_tasks _ =>
      is_success 201 is_task_json r
      || is_error 400 "Validation error" r || is_error 500 "Server error" r
  | GET_tasks =>
      is_success 200 is_tasks_json r || is_error 500 "Server error" r
  | GET_task _ =>
      is_success 200 is_task_json r
      || is_error 404 "Task not found" r || is_error 500 "Server error" r
  | PUT_task _ _ =>
      is_success 200 is_task_json r
      || is_error 400 "Validation error" r
      || is_error 404 "Task not found" r || is_error 500 "Server error" r
  | DELETE_task _ =>
      is_success 200 is_deleted_json r
      || is_error 404 "Task not found" r || is_error 500 "Server error" r
  | POST_sessions _ =>
      is_success 201 is_session_json r
      || is_error 400 "Validation error" r || is_error 500 "Server error" r
  | GET_sessions =>
      is_success 200 is_sessions_json r || is_error 500 "Server error" r
  end.

Definition deletes_a_task (req : Request) : bool :=
  match req with DELETE_task _ => true | _ => false end.

Module Integrity.
Import MemStore.

(** Every stored Session refers to a stored Task. *)
Definition references_resolve (s : Store) : Prop :=
  map_Forall (λ _ d, is_Some (tasks s !! Session.taskId d)) (sessions s).

#[global] Instance references_resolve_dec (s : Store)
  : Decision (references_resolve s).
Proof. unfold references_resolve. apply _. Defined.

(** The answer and the store after the creation of a Session. *)
Definition session_created (k : ObjectId) (x : float) (t : JsValue)
    (b : bool) (s : Store) : Response * Store :=
  let session := {| Session._id := next_id s; Session.taskId := k;
                    Session.duration := x; Session.startTime := t;
                    Session.completed := b |} in
  (respond 201 (session_json session),
   {| tasks := tasks s;
      sessions := <[next_id s := session]> (sessions s);
      next_id := N.succ (next_id s) |}).

End Integrity.

(** ** A database that cannot be reached

    A failure of [mongoose.connect] is only logged (lines 12-15) and the
    server keeps listening; every model call then throws. *)

Module Offline.

Definition timed_out : JsError :=
  {| name := lit "MongooseError";
     message := lit "Operation buffering timed out after 10000ms" |}.

Definition fail {A : Type} : StoreM unit A := λ s, (Throw timed_out, s).

Definition mongoose : Mongoose unit := {|
  isValid := MemStore.oid_isValid;
  Task_save := λ _ _, fail;
  Task_find := fail;
  Task_findById := λ _, fail;
  Task_findByIdAndUpdate := λ _ _, fail;
  Task_findByIdAndDelete := λ _, fail;
  Session_save := λ _ _ _ _, fail;
  Session_find_populate := fail
|}.

End Offline.

(** ** A longer scenario

    The scenario continued with a Session for the Task, and requests to
    every route. *)

Module Walkthrough.
Import MemStore Scenario.

Definition session_ok : JsValue :=
  obj [("taskId", JStr X); ("duration", JNum 25);
       ("startTime", start)]%string.

Definition pomodoro : Session.doc :=
  {| Session._id := 1; Session.taskId := 0; Session.duration := 25;
     Session.startTime := start; Session.completed := true |}.

(** The store after [POST /api/sessions] of [session_ok] on [one_task]. *)
Definition one_session : Store :=
  {| tasks := {[ 0%N := write_spec ]};
     sessions := {[ 1%N := pomodoro ]};
     next_id := 2 |}.

Definition not_an_id : jsstr := lit "42".

Definition requests : list Request :=
  [POST_tasks (title_only "  Write spec ");
   POST_sessions session_ok;
   PUT_task X (title_only " Draft");
   PUT_task not_an_id (title_only "  ");
   GET_tasks;
   GET_task X;
   GET_sessions;
   POST_tasks (title_only " ")].

End Walkthrough.

(** * Properties *)

(** *** Facts on [trim] *)

Lemma blank_app (s1 s2 : jsstr) : blank (s1 ++ s2) = blank s1 && blank s2.
Proof. apply forallb_app. Qed.

Lemma blank_reverse (s : jsstr) : blank (reverse s) = blank s.
Proof.
  induction s as [|c s IH]; [done|].
  rewrite reverse_cons, blank_app, IH. simpl.
  rewrite andb_true_r. apply andb_comm.
Qed.

Lemma blank_trimStart (s : jsstr) : blank (trimStart s) = blank s.
Proof.
  induction s as [|c s IH]; [done|].
  simpl. destruct (is_whitespace c) eqn:Hc; simpl; [done|].
  by rewrite Hc.
Qed.

Lemma trimStart_nil (s : jsstr) : trimStart s = [] ↔ blank s = true.
Proof.
  induction s as [|c s IH]; [done|].
  simpl. destruct (is_whitespace c); simpl; [done|]. split; discriminate.
Qed.

Lemma reverse_nil_iff {A} (l : list A) : reverse l = [] ↔ l = [].
Proof.
  split; [|by intros ->].
  intros H. apply (f_equal reverse) in H. by rewrite reverse_involutive in H.
Qed.

Lemma blank_trim (s : jsstr) : blank (trim s) = blank s.
Proof.
  unfold trim, trimEnd.
  by rewrite blank_reverse, blank_trimStart, blank_reverse, blank_trimStart.
Qed.

Lemma trim_nil (s : jsstr) : trim s = [] ↔ blank s = true.
Proof.
  unfold trim, trimEnd.
  by rewrite reverse_nil_iff, trimStart_nil, blank_reverse, blank_trimStart.
Qed.

Lemma trim_blank (s : jsstr) : blank s = true → trim s = [].
Proof. apply trim_nil. Qed.

Lemma trim_not_blank (s : jsstr) : blank s = false → trim s ≠ [].
Proof. intros Hb Hn. apply trim_nil in Hn. congruence. Qed.

(** [trim] removes white space at both ends and nothing else. *)
Lemma trimStart_split (s : jsstr) :
  ∃ l, s = l ++ trimStart s ∧ blank l = true.
Proof.
  induction s as [|c s [l [Hs Hl]]]; [by exists []|].
  simpl. destruct (is_whitespace c) eqn:Hc.
  - exists (c :: l). simpl. rewrite Hc, Hl. by rewrite <- Hs.
  - by exists [].
Qed.

Lemma trim_split (s : jsstr) :
  ∃ l r, s = l ++ trim s ++ r ∧ blank l = true ∧ blank r = true.
Proof.
  destruct (trimStart_split s) as [l [Hs Hl]].
  destruct (trimStart_split (reverse (trimStart s))) as [r [Hr Hb]].
  exists l, (reverse r). rewrite blank_reverse. split_and!; [|done..].
  unfold trim, trimEnd. rewrite <- reverse_app, <- Hr.
  by rewrite reverse_involutive.
Qed.

Lemma trimStart_head (s : jsstr) (c : N) :
  head (trimStart s) = Some c → is_whitespace c = false.
Proof.
  induction s as [|d s IH]; [done|].
  simpl. destruct (is_whitespace d) eqn:Hd; [done|].
  simpl. by intros [= <-].
Qed.

Lemma trimStart_id (s : jsstr) (c : N) :
  head s = Some c → is_whitespace c = false → trimStart s = s.
Proof. destruct s as [|d s]; [done|]. simpl. by intros [= ->] ->. Qed.

Lemma trim_head (s : jsstr) (c : N) :
  head (trim s) = Some c → is_whitespace c = false.
Proof.
  unfold trim, trimEnd.
  destruct (trimStart_split (reverse (trimStart s))) as [r [Hr Hb]].
  intros Hh.
  assert (Hs : trimStart s
               = reverse (trimStart (reverse (trimStart s))) ++ reverse r).
  { rewrite <- reverse_app, <- Hr. by rewrite reverse_involutive. }
  apply (trimStart_head s). rewrite Hs.
  destruct (reverse (trimStart (reverse (trimStart s)))); [done|]. exact Hh.
Qed.

Lemma trim_last (s : jsstr) (c : N) :
  last (trim s) = Some c → is_whitespace c = false.
Proof.
  unfold trim, trimEnd. rewrite last_reverse. apply trimStart_head.
Qed.

(** ** The handlers, over any store *)

Ltac unfold_handler :=
  unfold try_catch, catch_validation, catch_server,
    mbind, StoreM_bind, mret, StoreM_ret, pure, destructure, member.

Lemma prop_not_nullish (v : JsValue) (k : string) :
  prop v k ≠ JUndefined → nullish v = false.
Proof. by destruct v. Qed.

Lemma call_trim_throws (e : string) (v : JsValue) :
  is_string v = false →
  ∃ err, call_trim e v = Throw err ∧ name err = lit "TypeError".
Proof. destruct v; try done; intros _; by eexists. Qed.

Section HandlerFacts.
Context {S : Type} `{!Mongoose S}.

Lemma post_tasks_blank (body : JsValue) (t : jsstr) (s : S) :
  prop body "title" = JStr t →
  blank t = true →
  post_tasks body s
  = (respond 400 (error_json (lit "Validation error")
                             (lit "Title is required")), s).
Proof.
  intros Ht Hb. unfold post_tasks. unfold_handler.
  rewrite (prop_not_nullish body "title") by by rewrite Ht.
  rewrite Ht. simpl. case_bool_decide; simpl; [done|].
  by rewrite (trim_blank t Hb).
Qed.

Lemma post_tasks_saves (body : JsValue) (t : jsstr) (s : S) :
  prop body "title" = JStr t →
  blank t = false →
  post_tasks body s
  = match Task_save (JStr (trim t))
            (if truthy (prop body "completed") then prop body "completed"
             else JBool false) s with
    | (Ok savedTask, s') => (respond 201 (task_json savedTask), s')
    | (Throw err, s') => (catch_validation err, s')
    end.
Proof.
  intros Ht Hb. unfold post_tasks. unfold_handler.
  rewrite (prop_not_nullish body "title") by by rewrite Ht.
  rewrite Ht. simpl.
  assert (t ≠ []) as Hne by (intros ->; done).
  rewrite (bool_decide_eq_false_2 _ Hne). simpl.
  rewrite (bool_decide_eq_false_2 _ (trim_not_blank t Hb)).
  by destruct (Task_save _ _ s) as [[?|?] ?].
Qed.

Lemma put_task_invalid_id (id : jsstr) (updates : JsValue) (s : S) :
  isValid (JStr id) = false →
  put_task id updates s
  = (respond 404 (error_json (lit "Task not found")
                             (lit "Invalid task ID format")), s).
Proof. intros Hv. unfold put_task. unfold_handler. by rewrite Hv. Qed.

Lemma put_task_blank (id : jsstr) (updates : JsValue) (t : jsstr) (s : S) :
  isValid (JStr id) = true →
  prop updates "title" = JStr t →
  blank t = true →
  put_task id updates s
  = (respond 400 (error_json (lit "Validation error")
                             (lit "Title cannot be empty")), s).
Proof.
  intros Hv Ht Hb. unfold put_task. unfold_handler. rewrite Hv. simpl.
  rewrite (prop_not_nullish updates "title") by by rewrite Ht.
  rewrite Ht. simpl. by rewrite (trim_blank t Hb).
Qed.

(** A request that passes the checks of the update handler is answered
    from the result of the store's update. *)
Lemma put_task_updates (id : jsstr) (updates : JsValue) (s : S) :
  isValid (JStr id) = true →
  nullish updates = false →
  (prop updates "title" = JUndefined
   ∨ ∃ t, prop updates "title" = JStr t ∧ blank t = false) →
  put_task id updates s
  = match Task_findByIdAndUpdate (JStr id) updates s with
    | (Ok None, s') =>
        (respond 404 (error_json (lit "Task not found")
                                 (lit "Task not found")), s')
    | (Ok (Some updatedTask), s') =>
        (respond 200 (task_json updatedTask), s')
    | (Throw err, s') => (catch_validation err, s')
    end.
Proof.
  intros Hv Hn Ht. unfold put_task. unfold_handler. rewrite Hv, Hn. simpl.
  destruct Ht as [->|(t & -> & Hb)]; simpl.
  - by destruct (Task_findByIdAndUpdate _ _ s) as [[[?|]|?] ?].
  - rewrite (bool_decide_eq_false_2 _ (trim_not_blank t Hb)).
    by destruct (Task_findByIdAndUpdate _ _ s) as [[[?|]|?] ?].
Qed.

Lemma get_task_invalid_id (id : jsstr) (s : S) :
  isValid (JStr id) = false →
  get_task id s
  = (respond 404 (error_json (lit "Task not found")
                             (lit "Invalid task ID format")), s).
Proof. intros Hv. unfold get_task. unfold_handler. by rewrite Hv. Qed.

Lemma get_task_finds (id : jsstr) (s : S) :
  isValid (JStr id) = true →
  get_task id s
  = match Task_findById (JStr id) s with
    | (Ok None, s') =>
        (respond 404
           (error_json (lit "Task not found")
              (lit "Task with ID " ++ id ++ lit " not found")), s')
    | (Ok (Some task), s') => (respond 200 (task_json task), s')
    | (Throw err, s') =>
        (respond 500 (error_json (lit "Server error") (message err)), s')
    end.
Proof.
  intros Hv. unfold get_task. unfold_handler. rewrite Hv. simpl.
  by destruct (Task_findById _ s) as [[[?|]|?] ?].
Qed.

Lemma delete_task_invalid_id (id : jsstr) (s : S) :
  isValid (JStr id) = false →
  delete_task id s
  = (respond 404 (error_json (lit "Task not found")
                             (lit "Invalid task ID format")), s).
Proof. intros Hv. unfold delete_task. unfold_handler. by rewrite Hv. Qed.

Lemma delete_task_deletes (id : jsstr) (s : S) :
  isValid (JStr id) = true →
  delete_task id s
  = match Task_findByIdAndDelete (JStr id) s with
    | (Ok None, s') =>
        (respond 404 (error_json (lit "Task not found")
                                 (lit "Task not found")), s')
    | (Ok (Some deletedTask), s') =>
        (respond 200 (deleted_json (lit "Task deleted successfully")
                                   deletedTask), s')
    | (Throw err, s') =>
        (respond 500 (error_json (lit "Server error") (message err)), s')
    end.
Proof.
  intros Hv. unfold delete_task. unfold_handler. rewrite Hv. simpl.
  by destruct (Task_findByIdAndDelete _ s) as [[[?|]|?] ?].
Qed.

(** Exceptions of the runtime, raised before the store is called. *)
Lemma post_tasks_no_body (body : JsValue) (s : S) :
  nullish body = true →
  ∃ msg,
    post_tasks body s
    = (respond 500 (error_json (lit "Server error") msg), s).
Proof.
  intros Hn. unfold post_tasks. unfold_handler. rewrite Hn. by eexists.
Qed.

Lemma post_tasks_falsy_title (body : JsValue) (s : S) :
  nullish body = false →
  truthy (prop body "title") = false →
  post_tasks body s
  = (respond 400 (error_json (lit "Validation error")
                             (lit "Title is required")), s).
Proof.
  intros Hn Ht. unfold post_tasks. unfold_handler. by rewrite Hn, Ht.
Qed.

Lemma post_tasks_non_string (body : JsValue) (s : S) :
  truthy (prop body "title") = true →
  is_string (prop body "title") = false →
  ∃ err,
    call_trim "title" (prop body "title") = Throw err
    ∧ post_tasks body s
      = (respond 500 (error_json (lit "Server error") (message err)), s).
Proof.
  intros Ht Hs.
  assert (prop body "title" ≠ JUndefined) as Hp
    by (by intros E; rewrite E in Ht).
  unfold post_tasks. unfold_handler.
  rewrite (prop_not_nullish body "title" Hp). rewrite Ht. simpl.
  destruct (prop body "title"); try done; by eexists.
Qed.

Lemma put_task_no_body (id : jsstr) (updates : JsValue) (s : S) :
  isValid (JStr id) = true →
  nullish updates = true →
  ∃ msg,
    put_task id updates s
    = (respond 500 (error_json (lit "Server error") msg), s).
Proof.
  intros Hv Hn. unfold put_task. unfold_handler. rewrite Hv, Hn.
  by eexists.
Qed.

Lemma put_task_non_string (id : jsstr) (updates : JsValue) (s : S) :
  isValid (JStr id) = true →
  prop updates "title" ≠ JUndefined →
  is_string (prop updates "title") = false →
  ∃ err,
    call_trim "updates.title" (prop updates "title") = Throw err
    ∧ put_task id updates s
      = (respond 500 (error_json (lit "Server error") (message err)), s).
Proof.
  intros Hv Hp Hs.
  unfold put_task. unfold_handler. rewrite Hv. simpl.
  rewrite (prop_not_nullish updates "title" Hp).
  destruct (prop updates "title"); try done; by eexists.
Qed.

End HandlerFacts.

Section HandlerClaims.
Context {S : Type} `{!Mongoose S}.

(** C3.  An update whose body has [title] equal to the empty string, sent
    for the identifier of an existing Task (a valid identifier, then), is
    answered 400 "Validation error", and the store after the request is
    the store before it: the handler returns before it calls the store, so
    the Task stored under that identifier, like everything else, is
    exactly what it was. *)
Theorem update_empty_title_rejected
    (id : jsstr) (updates : JsValue) (s : S) :
  isValid (JStr id) = true →
  prop updates "title" = JStr [] →
  put_task id updates s
  = (respond 400 (error_json (lit "Validation error")
                             (lit "Title cannot be empty")), s).
Proof.
  intros Hv Ht. unfold put_task. unfold_handler.
  (* the identifier passes [isValid] *)
  rewrite Hv. simpl.
  (* [updates.title] is read from an object, and is the empty string *)
  rewrite (prop_not_nullish updates "title") by by rewrite Ht.
  rewrite Ht. simpl.
  (* [''.trim() === ''] holds by computation: the handler returns *)
  reflexivity.
Qed.

(** C8.  Creating a Task whose [title] is a string of white space only
    (such as three spaces) is answered 400 with the error category
    "Validation error", and the store is left as it was: no Task is
    stored. *)
Theorem create_whitespace_title_rejected
    (body : JsValue) (t : jsstr) (s : S) :
  prop body "title" = JStr t →
  blank t = true →
  post_tasks body s
  = (respond 400 (error_json (lit "Validation error")
                             (lit "Title is required")), s).
Proof.
  intros Ht Hb. unfold post_tasks. unfold_handler.
  rewrite (prop_not_nullish body "title") by by rewrite Ht.
  rewrite Ht. simpl.
  (* [!title] holds of the empty string; otherwise [title.trim()] is empty *)
  destruct t as [|c t]; [done|]. simpl bool_decide. simpl negb. cbv iota.
  by rewrite (trim_blank (c :: t) Hb).
Qed.

(** C9.  A [title] that is present but not a string makes the [trim] call
    of the check throw a TypeError, which the [catch] block answers with
    500 "Server error" and not with a 400: in an update for any such value
    ([null] included) once the identifier is valid, in a creation for any
    such value that is truthy (a non-zero number, [true], an array, an
    object). *)
Theorem non_string_title_is_server_error (s : S) :
  (∀ (id : jsstr) (updates : JsValue),
     isValid (JStr id) = true →
     prop updates "title" ≠ JUndefined →
     is_string (prop updates "title") = false →
     ∃ err,
       call_trim "updates.title" (prop updates "title") = Throw err
       ∧ name err = lit "TypeError"
       ∧ put_task id updates s
         = (respond 500 (error_json (lit "Server error") (message err)), s))
  ∧ (∀ body : JsValue,
       truthy (prop body "title") = true →
       is_string (prop body "title") = false →
       ∃ err,
         call_trim "title" (prop body "title") = Throw err
         ∧ name err = lit "TypeError"
         ∧ post_tasks body s
           = (respond 500 (error_json (lit "Server error") (message err)),
              s)).
Proof.
  split.
  - intros id updates Hv Hp Hs.
    destruct (put_task_non_string id updates s Hv Hp Hs) as (err & Ht & Hr).
    destruct (call_trim_throws "updates.title" _ Hs) as (err' & Ht' & Hn).
    exists err. split_and!; [done| |done]. congruence.
  - intros body Htr Hs.
    destruct (post_tasks_non_string body s Htr Hs) as (err & Ht & Hr).
    destruct (call_trim_throws "title" _ Hs) as (err' & Ht' & Hn).
    exists err. split_and!; [done| |done]. congruence.
Qed.

Variable Number_toString : float → jsstr.

(** C10.  Creating a Session whose [duration] is the number zero is
    answered 400 "Duration is required": once [taskId] has passed its own
    check, the test [!duration] rejects a zero as it rejects an absent
    field. *)
Theorem create_session_zero_duration
    (body : JsValue) (x : float) (s : S) :
  truthy (prop body "taskId") = true →
  prop body "duration" = JNum x →
  PrimFloat.eqb x 0 = true →
  post_sessions Number_toString body s
  = (respond 400 (error_json (lit "Validation error")
                             (lit "Duration is required")), s).
Proof.
  intros Hid Hd Hx. unfold post_sessions. unfold_handler.
  rewrite (prop_not_nullish body "duration") by by rewrite Hd.
  rewrite Hid, Hd. simpl. by rewrite Hx.
Qed.

Lemma post_sessions_saves (body : JsValue) (s s1 : S) (t : Task.doc) :
  truthy (prop body "taskId") = true →
  truthy (prop body "duration") = true →
  truthy (prop body "startTime") = true →
  isValid (prop body "taskId") = true →
  Task_findById (prop body "taskId") s = (Ok (Some t), s1) →
  post_sessions Number_toString body s
  = match Session_save (prop body "taskId") (prop body "duration")
            (prop body "startTime")
            (completed_or_true (prop body "completed")) s1 with
    | (Ok savedSession, s2) =>
        (respond 201 (session_json savedSession), s2)
    | (Throw err, s2) => (catch_validation err, s2)
    end.
Proof.
  intros Hid Hd Ht Hv Hf. unfold post_sessions. unfold_handler.
  rewrite (prop_not_nullish body "taskId") by (by intros E; rewrite E in Hid).
  rewrite Hid, Hd, Ht, Hv. simpl. rewrite Hf.
  by destruct (Session_save _ _ _ _ s1) as [[?|?] ?].
Qed.


(** Any other exception of the save is a server error. *)
Lemma post_sessions_store_failure
    (body : JsValue) (s s1 s2 : S) (t : Task.doc) (err : JsError) :
  truthy (prop body "taskId") = true →
  truthy (prop body "duration") = true →
  truthy (prop body "startTime") = true →
  isValid (prop body "taskId") = true →
  Task_findById (prop body "taskId") s = (Ok (Some t), s1) →
  Session_save (prop body "taskId") (prop body "duration")
    (prop body "startTime") (completed_or_true (prop body "completed")) s1
  = (Throw err, s2) →
  name err ≠ lit "ValidationError" →
  post_sessions Number_toString body s
  = (respond 500 (error_json (lit "Server error") (message err)), s2).
Proof.
  intros Hid Hd Ht Hv Hf Hs He.
  rewrite (post_sessions_saves body s s1 t) by done.
  rewrite Hs. unfold catch_validation.
  by rewrite (bool_decide_eq_false_2 _ He).
Qed.

End HandlerClaims.

(** ** The handlers over the in-memory store *)

Section MemStoreClaims.
Import MemStore.

Lemma isValid_parse_oid (id : jsstr) (k : ObjectId) :
  parse_oid id = Some k → isValid (JStr id) = true.
Proof. intros Hk. simpl. by rewrite Hk. Qed.

Lemma isValid_parse_oid_None (id : jsstr) :
  parse_oid id = None → isValid (JStr id) = false.
Proof. intros Hk. simpl. by rewrite Hk. Qed.

Lemma find_task_lookup (id : jsstr) (k : ObjectId) (s : Store) :
  parse_oid id = Some k →
  Task_findById (JStr id) s = (Ok (tasks s !! k), s).
Proof.
  intros Hk. simpl. unfold store_find_task. unfold_handler.
  simpl. by rewrite Hk.
Qed.

(** C6.  Getting a Task: an identifier that is not in the identifier
    syntax is answered 404 (not found, not a parse error); a well-formed
    identifier under which no Task is stored is answered 404; an
    identifier under which a Task is stored is answered 200 with that
    Task.  The store is left as it was in every case. *)
Theorem get_task_outcomes (id : jsstr) (s : Store) :
  get_task id s
  = match parse_oid id with
    | None =>
        (respond 404 (error_json (lit "Task not found")
                                 (lit "Invalid task ID format")), s)
    | Some k =>
        match tasks s !! k with
        | None =>
            (respond 404
               (error_json (lit "Task not found")
                  (lit "Task with ID " ++ id ++ lit " not found")), s)
        | Some task => (respond 200 (task_json task), s)
        end
    end.
Proof.
  destruct (parse_oid id) as [k|] eqn:Hk.
  - rewrite get_task_finds by by apply (isValid_parse_oid id k).
    rewrite (find_task_lookup id k s Hk). by destruct (tasks s !! k).
  - by apply get_task_invalid_id, isValid_parse_oid_None.
Qed.

Lemma delete_task_lookup (id : jsstr) (k : ObjectId) (s : Store) :
  parse_oid id = Some k →
  Task_findByIdAndDelete (JStr id) s = remove_task k s.
Proof.
  intros Hk. simpl. unfold store_delete_task. unfold_handler.
  simpl. rewrite Hk. by destruct (remove_task k s) as [[?|?] ?].
Qed.

(** C7.  Deleting an existing Task is answered 200 with a message and the
    deleted Task under [task], and removes the Task (and nothing else)
    from the store; deleting the same identifier again is answered 404. *)
Theorem delete_task_then_again
    (id : jsstr) (k : ObjectId) (t : Task.doc) (s : Store) :
  parse_oid id = Some k →
  tasks s !! k = Some t →
  ∃ s',
    delete_task id s
    = (respond 200 (deleted_json (lit "Task deleted successfully") t), s')
    ∧ tasks s' !! k = None
    ∧ (∀ k', k' ≠ k → tasks s' !! k' = tasks s !! k')
    ∧ delete_task id s'
      = (respond 404 (error_json (lit "Task not found")
                                 (lit "Task not found")), s').
Proof.
  intros Hk Ht. exists (with_tasks (delete k (tasks s)) s).
  pose proof (isValid_parse_oid id k Hk) as Hv.
  rewrite !delete_task_deletes by done.
  rewrite !(delete_task_lookup id k) by done.
  unfold remove_task. rewrite Ht. simpl.
  rewrite lookup_delete_eq. split_and!; [done..| |done].
  intros k' Hne. by apply lookup_delete_ne.
Qed.

(** *** Writing a Task *)

(** What the creation handler stores for a title [t]. *)
Lemma save_task_inserts (t : jsstr) (c : bool) (s : Store) :
  Task_save (JStr t) (JBool c) s = insert_task t c s.
Proof.
  simpl. unfold store_save_task. unfold_handler. simpl.
  by destruct (insert_task t c s) as [[?|?] ?].
Qed.

Lemma save_task_rejects (t : jsstr) (c : JsValue) (s : Store) :
  (∀ b, c ≠ JBool b) →
  ∃ err, Task_save (JStr t) c s = (Throw err, s)
         ∧ name err = lit "ValidationError".
Proof.
  intros Hc. simpl. unfold store_save_task. unfold_handler. simpl.
  destruct c; try (by eexists). by destruct (Hc b).
Qed.

(** C5.  A creation request whose [title] is a string that is not blank is
    answered 201 with the created Task: the identifier the store assigns,
    the title trimmed of the white space around it, and [completed] false
    when the body has no [completed] (and the boolean of the body when it
    has one); that Task is what the store then holds under the
    identifier. *)
Theorem create_task_trims_and_defaults
    (body : JsValue) (t : jsstr) (s : Store) :
  prop body "title" = JStr t →
  blank t = false →
  (prop body "completed" = JUndefined →
   post_tasks body s = created t false s)
  ∧ (∀ b, prop body "completed" = JBool b →
          post_tasks body s = created t b s).
Proof.
  intros Ht Hb. split.
  - intros Hc.
    rewrite (post_tasks_saves body t s Ht Hb), Hc. simpl truthy. cbv iota.
    by rewrite save_task_inserts.
  - intros b Hc.
    rewrite (post_tasks_saves body t s Ht Hb), Hc. simpl truthy.
    destruct b; by rewrite save_task_inserts.
Qed.

Lemma update_task_lookup
    (id : jsstr) (k : ObjectId) (updates : JsValue) (s : Store) :
  parse_oid id = Some k →
  Task_findByIdAndUpdate (JStr id) updates s = replace_task k updates s.
Proof.
  intros Hk. simpl. unfold store_update_task. unfold_handler.
  simpl. rewrite Hk. by destruct (replace_task k updates s) as [[?|?] ?].
Qed.

(** A partial document changes the fields it has, and only those. *)
Lemma apply_updates_fields (t t' : Task.doc) (updates : JsValue) :
  apply_updates t updates = Ok t' →
  Task._id t' = Task._id t
  ∧ (prop updates "title" = JUndefined → Task.title t' = Task.title t)
  ∧ (∀ x, prop updates "title" = JStr x → Task.title t' = x)
  ∧ (prop updates "completed" = JUndefined →
     Task.completed t' = Task.completed t)
  ∧ (∀ b, prop updates "completed" = JBool b → Task.completed t' = b).
Proof.
  unfold apply_updates.
  destruct (prop updates "title"), (prop updates "completed");
    simpl; try done; intros [= <-]; simpl; split_and!; try done;
    by intros ? [= ->].
Qed.

(** Every outcome of an update: either the store is untouched, or the
    Task under the identifier was replaced by the Task the partial
    document makes of it, and the answer is 200 with that Task. *)
Lemma put_task_cases (id : jsstr) (updates : JsValue) (s : Store) :
  ((put_task id updates s).2 = s ∧ status (put_task id updates s).1 ≠ 200%Z)
  ∨ ∃ k t t',
      parse_oid id = Some k
      ∧ tasks s !! k = Some t
      ∧ apply_updates t updates = Ok t'
      ∧ (prop updates "title" = JUndefined
         ∨ ∃ x, prop updates "title" = JStr x ∧ blank x = false)
      ∧ put_task id updates s
        = (respond 200 (task_json t'),
           with_tasks (<[k := t']> (tasks s)) s).
Proof.
  destruct (parse_oid id) as [k|] eqn:Hk.
  2: { left. by rewrite put_task_invalid_id
         by by apply isValid_parse_oid_None. }
  pose proof (isValid_parse_oid id k Hk) as Hv.
  destruct (nullish updates) eqn:Hn.
  { left. by destruct (put_task_no_body id updates s Hv Hn) as [msg ->]. }
  assert (prop updates "title" = JUndefined
          ∨ (∃ x, prop updates "title" = JStr x)
          ∨ (prop updates "title" ≠ JUndefined
             ∧ is_string (prop updates "title") = false)) as Ht.
  { destruct (prop updates "title"); eauto. }
  destruct Ht as [Ht|[[x Ht]|[Hp Hs]]].
  3: { left.
       by destruct (put_task_non_string id updates s Hv Hp Hs)
         as (e & _ & ->). }
  all: [> | destruct (blank x) eqn:Hb;
            [left; by rewrite (put_task_blank id updates x s Hv Ht Hb)|] ].
  all: rewrite put_task_updates by eauto.
  all: rewrite (update_task_lookup id k updates s Hk).
  all: unfold replace_task.
  all: destruct (tasks s !! k) as [t|] eqn:Hl; [|by left].
  all: destruct (apply_updates t updates) as [t'|e] eqn:Ha.
  all: try (right; exists k, t, t'; split_and!; eauto; done).
  all: left; unfold catch_validation; by case_bool_decide.
Qed.

(** C4.  For an existing Task, an update with the body
    [{completed: true}] is answered 200 with [completed] true and the
    title as it was, and the store then holds that Task; more generally,
    whatever the body, the Task stays stored under its identifier, a field
    the body does not have keeps its value, a 200 answer carries the
    stored Task, and no other Task changes. *)
Theorem update_leaves_absent_fields
    (id : jsstr) (k : ObjectId) (t : Task.doc) (s : Store) :
  parse_oid id = Some k →
  tasks s !! k = Some t →
  (let t' := {| Task._id := Task._id t; Task.title := Task.title t;
                Task.completed := true |} in
   put_task id (obj [("completed"%string, JBool true)]) s
   = (respond 200 (task_json t'), with_tasks (<[k := t']> (tasks s)) s))
  ∧ (∀ updates : JsValue,
       ∃ t',
         tasks (put_task id updates s).2 !! k = Some t'
         ∧ (status (put_task id updates s).1 = 200%Z →
            json (put_task id updates s).1 = task_json t')
         ∧ Task._id t' = Task._id t
         ∧ (prop updates "title" = JUndefined →
            Task.title t' = Task.title t)
         ∧ (prop updates "completed" = JUndefined →
            Task.completed t' = Task.completed t))
  ∧ (∀ (updates : JsValue) (k' : ObjectId),
       k' ≠ k →
       tasks (put_task id updates s).2 !! k' = tasks s !! k').
Proof.
  intros Hk Ht. split_and!.
  - intros t'. rewrite put_task_updates;
      [|by apply (isValid_parse_oid id k)|done|by left].
    rewrite (update_task_lookup id k _ s Hk). unfold replace_task.
    by rewrite Ht.
  - intros updates.
    destruct (put_task_cases id updates s)
      as [[-> Hst]|(k0 & t0 & t' & Hk0 & Ht0 & Ha & _ & ->)].
    + by exists t.
    + assert (k0 = k) as -> by congruence.
      assert (t0 = t) as -> by congruence.
      destruct (apply_updates_fields t t' updates Ha)
        as (Hid & Htitle & _ & Hcompleted & _).
      exists t'. simpl. by rewrite lookup_insert_eq.
  - intros updates k' Hne.
    destruct (put_task_cases id updates s)
      as [[-> _]|(k0 & t0 & t' & Hk0 & _ & _ & _ & ->)]; [done|].
    assert (k0 = k) as -> by congruence.
    simpl. by rewrite lookup_insert_ne.
Qed.

End MemStoreClaims.

(** ** The update handler and update documents *)

Section UpdateDocuments.
Import MemStore Scenario.


End UpdateDocuments.

(** ** The properties on the scenario *)

Section ScenarioFacts.
Import MemStore Scenario.



Lemma update_empty_title_rejected_witness :
  isValid (JStr X) = true
  ∧ tasks one_task !! 0%N = Some write_spec
  ∧ put_task X (obj [("title"%string, JStr [])]) one_task
    = (respond 400 (error_json (lit "Validation error")
                               (lit "Title cannot be empty")), one_task).
Proof.
  split_and!; [reflexivity..|].
  apply (update_empty_title_rejected X); reflexivity.
Defined.

Lemma update_leaves_absent_fields_witness :
  put_task X (obj [("completed"%string, JBool true)]) one_task
  = (respond 200
       (task_json {| Task._id := 0; Task.title := lit "Write spec";
                     Task.completed := true |}),
     {| tasks := {[ 0%N := {| Task._id := 0;
                              Task.title := lit "Write spec";
                              Task.completed := true |} ]};
        sessions := ∅; next_id := 1 |}).
Proof.
  destruct (update_leaves_absent_fields X 0%N write_spec one_task
              eq_refl eq_refl) as [Hcompleted _].
  exact Hcompleted.
Defined.

Lemma create_task_trims_and_defaults_witness :
  blank (lit "  Write spec ") = false
  ∧ post_tasks (title_only "  Write spec ") initial
    = (respond 201 (task_json write_spec), one_task).
Proof.
  split; [reflexivity|].
  destruct (create_task_trims_and_defaults (title_only "  Write spec ")
              (lit "  Write spec ") initial eq_refl eq_refl)
    as [Homitted _].
  exact (Homitted eq_refl).
Defined.

Lemma delete_task_then_again_witness :
  ∃ s',
    delete_task X one_task
    = (respond 200
         (deleted_json (lit "Task deleted successfully") write_spec), s')
    ∧ tasks s' !! 0%N = None
    ∧ (∀ k', k' ≠ 0%N → tasks s' !! k' = tasks one_task !! k')
    ∧ delete_task X s'
      = (respond 404 (error_json (lit "Task not found")
                                 (lit "Task not found")), s').
Proof.
  exact (delete_task_then_again X 0%N write_spec one_task
           eq_refl eq_refl).
Defined.

Lemma create_whitespace_title_rejected_witness :
  blank (lit "   ") = true
  ∧ post_tasks (title_only "   ") one_task
    = (respond 400 (error_json (lit "Validation error")
                               (lit "Title is required")), one_task).
Proof.
  split; [reflexivity|].
  apply (create_whitespace_title_rejected _ (lit "   ")); reflexivity.
Defined.

Lemma non_string_title_is_server_error_witness :
  status (put_task X (obj [("title"%string, JNull)]) one_task).1 = 500%Z
  ∧ status (post_tasks (obj [("title"%string, JNum 5)]) one_task).1
    = 500%Z.
Proof.
  destruct (non_string_title_is_server_error one_task)
    as [Hupdate Hcreate].
  split.
  - destruct (Hupdate X (obj [("title"%string, JNull)]) eq_refl
                ltac:(discriminate) eq_refl) as (err & _ & _ & ->).
    reflexivity.
  - destruct (Hcreate (obj [("title"%string, JNum 5)]) eq_refl eq_refl)
      as (err & _ & _ & ->).
    reflexivity.
Defined.

Lemma create_session_zero_duration_witness :
  post_sessions no_numbers session_zero_duration one_task
  = (respond 400 (error_json (lit "Validation error")
                             (lit "Duration is required")), one_task).
Proof.
  apply (create_session_zero_duration no_numbers session_zero_duration
           0%float); reflexivity.
Defined.

End ScenarioFacts.

(** ** Further properties of the handlers, over any store *)

Section RouteFacts.
Context {S : Type} `{!Mongoose S}.
Variable Number_toString : float → jsstr.

Lemma catch_validation_answer (err : JsError) :
  is_error 400 "Validation error" (catch_validation err)
  || is_error 500 "Server error" (catch_validation err) = true.
Proof. unfold catch_validation. by case_bool_decide. Qed.

Lemma answer_of_catch_validation (req : Request) (err : JsError) :
  (∀ r, is_error 400 "Validation error" r = true →
        answer_of req r = true) →
  (∀ r, is_error 500 "Server error" r = true → answer_of req r = true) →
  answer_of req (catch_validation err) = true.
Proof.
  intros H400 H500. unfold catch_validation.
  case_bool_decide; [by apply H400|by apply H500].
Qed.

Ltac answer_orb :=
  intros r Hr; simpl; rewrite Hr; by rewrite ?orb_true_r.

Lemma post_tasks_answer (body : JsValue) (s : S) :
  answer_of (POST_tasks body) (post_tasks body s).1 = true.
Proof.
  destruct (nullish body) eqn:Hn.
  { by destruct (post_tasks_no_body body s Hn) as [msg ->]. }
  destruct (truthy (prop body "title")) eqn:Htr.
  2: { by rewrite post_tasks_falsy_title. }
  destruct (is_string (prop body "title")) eqn:Hs.
  2: { by destruct (post_tasks_non_string body s Htr Hs) as (e & _ & ->). }
  destruct (prop body "title") as [| | | |t| |] eqn:Ht; try done.
  destruct (blank t) eqn:Hb.
  { by rewrite (post_tasks_blank body t s Ht Hb). }
  rewrite (post_tasks_saves body t s Ht Hb).
  destruct (Task_save _ _ s) as [[d|e] s']; [done|].
  apply answer_of_catch_validation; answer_orb.
Qed.

Lemma put_task_answer (id : jsstr) (updates : JsValue) (s : S) :
  answer_of (PUT_task id updates) (put_task id updates s).1 = true.
Proof.
  destruct (isValid (JStr id)) eqn:Hv.
  2: { by rewrite put_task_invalid_id. }
  destruct (nullish updates) eqn:Hn.
  { by destruct (put_task_no_body id updates s Hv Hn) as [msg ->]. }
  assert (prop updates "title" = JUndefined
          ∨ (∃ x, prop updates "title" = JStr x)
          ∨ (prop updates "title" ≠ JUndefined
             ∧ is_string (prop updates "title") = false)) as Ht.
  { destruct (prop updates "title"); eauto. }
  destruct Ht as [Ht|[[x Ht]|[Hp Hs]]].
  3: { by destruct (put_task_non_string id updates s Hv Hp Hs)
         as (e & _ & ->). }
  all: [> | destruct (blank x) eqn:Hb;
            [by rewrite (put_task_blank id updates x s Hv Ht Hb)|] ].
  all: rewrite put_task_updates by eauto.
  all: destruct (Task_findByIdAndUpdate _ _ s) as [[[d|]|e] s']; [done..|].
  all: apply answer_of_catch_validation; answer_orb.
Qed.

Lemma post_sessions_answer (body : JsValue) (s : S) :
  answer_of (POST_sessions body) (post_sessions Number_toString body s).1
  = true.
Proof.
  unfold post_sessions. unfold_handler.
  destruct (nullish body); [done|]. simpl.
  destruct (truthy (prop body "taskId")); [|done]. simpl.
  destruct (truthy (prop body "duration")); [|done]. simpl.
  destruct (truthy (prop body "startTime")); [|done]. simpl.
  destruct (isValid (prop body "taskId")); [|done]. simpl.
  destruct (Task_findById _ s) as [[[d|]|e] s']; simpl.
  - destruct (Session_save _ _ _ _ s') as [[d'|e] s'']; [done|].
    by case_bool_decide.
  - done.
  - by case_bool_decide.
Qed.

(** X1.  Whatever the request and whatever the store does, the answer of a
    route is one of those the source gives it: its success status with its
    own kind of body, or an error whose status and category agree (400
    with "Validation error", 404 with "Task not found", 500 with "Server
    error"); 404 is only sent by the three routes with an identifier, 400
    only by the three that write. *)
Theorem every_answer_is_of_its_route (req : Request) (s : S) :
  answer_of req (handle Number_toString req s).1 = true.
Proof.
  destruct req as [body| |id|id updates|id|body|]; simpl handle.
  - apply post_tasks_answer.
  - unfold get_tasks. unfold_handler.
    by destruct (Task_find s) as [[?|?] ?].
  - destruct (isValid (JStr id)) eqn:Hv.
    + rewrite get_task_finds by done.
      by destruct (Task_findById _ s) as [[[?|]|?] ?].
    + by rewrite get_task_invalid_id.
  - apply put_task_answer.
  - destruct (isValid (JStr id)) eqn:Hv.
    + rewrite delete_task_deletes by done.
      by destruct (Task_findByIdAndDelete _ s) as [[[?|]|?] ?].
    + by rewrite delete_task_invalid_id.
  - apply post_sessions_answer.
  - unfold get_sessions. unfold_handler.
    by destruct (Session_find_populate s) as [[?|?] ?].
Qed.

Lemma trimStart_idempotent (s : jsstr) : trimStart (trimStart s) = trimStart s.
Proof.
  destruct (trimStart s) as [|c u] eqn:Hu; [done|].
  apply (trimStart_id _ c); [done|].
  apply (trimStart_head s). by rewrite Hu.
Qed.

Lemma trim_idempotent (s : jsstr) : trim (trim s) = trim s.
Proof.
  assert (trimStart (trim s) = trim s) as Hstart.
  { destruct (trim s) as [|c u] eqn:Hu; [done|].
    apply (trimStart_id _ c); [done|].
    apply (trim_head s). by rewrite Hu. }
  unfold trim at 1. rewrite Hstart. unfold trim, trimEnd.
  by rewrite reverse_involutive, trimStart_idempotent.
Qed.

(** X2.  A malformed identifier is answered before anything else is looked
    at: the three routes with an identifier send the same 404 and return
    the store as it was, and the update does so whatever its body holds (a
    blank title, a title that is not a string, no body at all). *)
Theorem malformed_id_is_answered_first (id : jsstr) (s : S) :
  isValid (JStr id) = false →
  let not_found :=
    respond 404 (error_json (lit "Task not found")
                            (lit "Invalid task ID format")) in
  get_task id s = (not_found, s)
  ∧ (∀ updates, put_task id updates s = (not_found, s))
  ∧ delete_task id s = (not_found, s).
Proof.
  intros Hv not_found. split_and!.
  - unfold get_task. unfold_handler. by rewrite Hv.
  - intros updates. unfold put_task. unfold_handler. by rewrite Hv.
  - unfold delete_task. unfold_handler. by rewrite Hv.
Qed.

(** X3.  The required fields of a Session are checked in the order
    [taskId], [duration], [startTime]: the first one that is missing (or
    falsy) names the message, whatever the later ones are, and the store is
    returned as it was. *)
Theorem create_session_first_missing_field (body : JsValue) (s : S) :
  nullish body = false →
  let required (msg : string) :=
    (respond 400 (error_json (lit "Validation error") (lit msg)), s) in
  (truthy (prop body "taskId") = false →
   post_sessions Number_toString body s = required "Task ID is required"%string)
  ∧ (truthy (prop body "taskId") = true →
     truthy (prop body "duration") = false →
     post_sessions Number_toString body s
     = required "Duration is required"%string)
  ∧ (truthy (prop body "taskId") = true →
     truthy (prop body "duration") = true →
     truthy (prop body "startTime") = false →
     post_sessions Number_toString body s
     = required "Start time is required"%string).
Proof.
  intros Hn required. split_and!.
  - intros Hid. unfold post_sessions. unfold_handler. by rewrite Hn, Hid.
  - intros Hid Hd. unfold post_sessions. unfold_handler.
    by rewrite Hn, Hid, Hd.
  - intros Hid Hd Ht. unfold post_sessions. unfold_handler.
    by rewrite Hn, Hid, Hd, Ht.
Qed.

(** X4.  In a creation, [completed || false] makes every falsy [completed]
    ([null], [0], the empty string, [false]) the same as none: two bodies
    with the same title and falsy [completed] get the same answer and leave
    the same store. *)
Theorem create_task_falsy_completed (body body' : JsValue) (s : S) :
  nullish body = false →
  nullish body' = false →
  prop body "title" = prop body' "title" →
  truthy (prop body "completed") = false →
  truthy (prop body' "completed") = false →
  post_tasks body s = post_tasks body' s.
Proof.
  intros Hn Hn' Ht Hc Hc'. unfold post_tasks. unfold_handler.
  by rewrite Hn, Hn', Ht, Hc, Hc'.
Qed.

(** X5.  A creation depends on its title only through [title.trim()]:
    sending a title with white space around it and sending the trimmed
    title get the same answer and leave the same store. *)
Theorem create_task_title_normalised
    (body body' : JsValue) (t : jsstr) (s : S) :
  prop body "title" = JStr t →
  prop body' "title" = JStr (trim t) →
  prop body "completed" = prop body' "completed" →
  post_tasks body s = post_tasks body' s.
Proof.
  intros Ht Ht' Hc. destruct (blank t) eqn:Hb.
  - rewrite (post_tasks_blank body t s Ht Hb).
    by rewrite (post_tasks_blank body' (trim t) s Ht')
      by by rewrite blank_trim.
  - rewrite (post_tasks_saves body t s Ht Hb).
    rewrite (post_tasks_saves body' (trim t) s Ht')
      by by rewrite blank_trim.
    by rewrite trim_idempotent, Hc.
Qed.

(** X6.  When the model throws in one of the two handlers that write a
    Task, the [catch] block sends the exception's message: with 400
    "Validation error" if the exception is named ValidationError, with 500
    "Server error" otherwise; the store is the one the model left. *)
Theorem task_write_exceptions (s s' : S) (err : JsError) :
  let answer :=
    if bool_decide (name err = lit "ValidationError")
    then respond 400 (error_json (lit "Validation error") (message err))
    else respond 500 (error_json (lit "Server error") (message err)) in
  (∀ (body : JsValue) (t : jsstr),
     prop body "title" = JStr t →
     blank t = false →
     Task_save (JStr (trim t))
       (if truthy (prop body "completed") then prop body "completed"
        else JBool false) s = (Throw err, s') →
     post_tasks body s = (answer, s'))
  ∧ (∀ (id : jsstr) (updates : JsValue),
       isValid (JStr id) = true →
       nullish updates = false →
       (prop updates "title" = JUndefined
        ∨ ∃ t, prop updates "title" = JStr t ∧ blank t = false) →
       Task_findByIdAndUpdate (JStr id) updates s = (Throw err, s') →
       put_task id updates s = (answer, s')).
Proof.
  intros answer. split.
  - intros body t Ht Hb Hsave.
    by rewrite (post_tasks_saves body t s Ht Hb), Hsave.
  - intros id updates Hv Hn Ht Hupd.
    by rewrite (put_task_updates id updates s Hv Hn Ht), Hupd.
Qed.

(** X7.  The handlers that read, and the delete, have no case for
    ValidationError: whatever exception the model throws, its name
    included, they answer 500 "Server error" with the exception's
    message. *)
Theorem read_and_delete_exceptions (s s' : S) (err : JsError) :
  let answer :=
    respond 500 (error_json (lit "Server error") (message err)) in
  (Task_find s = (Throw err, s') → get_tasks s = (answer, s'))
  ∧ (∀ id : jsstr,
       isValid (JStr id) = true →
       Task_findById (JStr id) s = (Throw err, s') →
       get_task id s = (answer, s'))
  ∧ (∀ id : jsstr,
       isValid (JStr id) = true →
       Task_findByIdAndDelete (JStr id) s = (Throw err, s') →
       delete_task id s = (answer, s'))
  ∧ (Session_find_populate s = (Throw err, s') →
     get_sessions s = (answer, s')).
Proof.
  intros answer. split_and!.
  - intros Hf. unfold get_tasks. unfold_handler. by rewrite Hf.
  - intros id Hv Hf. by rewrite get_task_finds, Hf.
  - intros id Hv Hf. by rewrite delete_task_deletes, Hf.
  - intros Hf. unfold get_sessions. unfold_handler. by rewrite Hf.
Qed.

(** X8.  In the creation of a Session only an absent [completed] is
    defaulted, and it is defaulted to [true]: a body without [completed]
    and the same body with [completed: true] get the same answer and leave
    the same store. *)
Theorem create_session_completed_default (body body' : JsValue) (s : S) :
  nullish body = false →
  nullish body' = false →
  prop body "taskId" = prop body' "taskId" →
  prop body "duration" = prop body' "duration" →
  prop body "startTime" = prop body' "startTime" →
  prop body "completed" = JUndefined →
  prop body' "completed" = JBool true →
  post_sessions Number_toString body s
  = post_sessions Number_toString body' s.
Proof.
  intros Hn Hn' Hid Hd Ht Hc Hc'. unfold post_sessions. unfold_handler.
  by rewrite Hn, Hn', Hid, Hd, Ht, Hc, Hc'.
Qed.

Lemma post_sessions_absent (body : JsValue) (s s1 : S) :
  truthy (prop body "taskId") = true →
  truthy (prop body "duration") = true →
  truthy (prop body "startTime") = true →
  isValid (prop body "taskId") = true →
  Task_findById (prop body "taskId") s = (Ok None, s1) →
  (post_sessions Number_toString body s).2 = s1.
Proof.
  intros Hid Hd Ht Hv Hf. unfold post_sessions. unfold_handler.
  rewrite (prop_not_nullish body "taskId")
    by (by intros E; rewrite E in Hid).
  rewrite Hid, Hd, Ht, Hv. simpl. by rewrite Hf.
Qed.

(** A Session request that fails a check leaves the store alone. *)
Lemma post_sessions_rejected (body : JsValue) (s : S) :
  nullish body = true
  ∨ truthy (prop body "taskId") && truthy (prop body "duration")
    && truthy (prop body "startTime") && isValid (prop body "taskId")
    = false →
  (post_sessions Number_toString body s).2 = s.
Proof.
  intros Hr. unfold post_sessions. unfold_handler.
  destruct (nullish body); [done|]. destruct Hr as [?|Hr]; [done|]. simpl.
  destruct (truthy (prop body "taskId")); [|done]. simpl.
  destruct (truthy (prop body "duration")); [|done]. simpl.
  destruct (truthy (prop body "startTime")); [|done]. simpl.
  simpl in Hr. by rewrite Hr.
Qed.

End RouteFacts.

(** ** Further properties of the handlers over the in-memory store *)

Section StoreFacts.
Import MemStore Integrity.
Variable Number_toString : float → jsstr.

(** Every outcome of a creation, with its answer. *)
Lemma post_tasks_created (body : JsValue) (s : Store) :
  ((post_tasks body s).2 = s ∧ status (post_tasks body s).1 ≠ 201%Z)
  ∨ ∃ t b,
      prop body "title" = JStr t ∧ blank t = false
      ∧ post_tasks body s = created t b s.
Proof.
  destruct (nullish body) eqn:Hn.
  { left. by destruct (post_tasks_no_body body s Hn) as [msg ->]. }
  destruct (truthy (prop body "title")) eqn:Htr.
  2: { left. by rewrite post_tasks_falsy_title. }
  destruct (is_string (prop body "title")) eqn:Hs.
  2: { left.
       by destruct (post_tasks_non_string body s Htr Hs) as (e & _ & ->). }
  destruct (prop body "title") as [| | | |t| |] eqn:Ht; try done.
  destruct (blank t) eqn:Hb.
  { left. by rewrite (post_tasks_blank body t s Ht Hb). }
  rewrite (post_tasks_saves body t s Ht Hb).
  set (c := if truthy (prop body "completed") then _ else _).
  assert ((∃ b, c = JBool b) ∨ (∀ b, c ≠ JBool b)) as [[b ->]|Hc]
    by (destruct c; eauto).
  - right. exists t, b. by rewrite save_task_inserts.
  - left. destruct (save_task_rejects (trim t) c s Hc) as (e & -> & He).
    unfold catch_validation. by rewrite (bool_decide_eq_true_2 _ He).
Qed.

(** X10.  Listing the Tasks answers 200 with the stored Tasks, each of
    them once and nothing else, and leaves the store as it was. *)
Theorem list_tasks_lists_the_store (s : Store) :
  ∃ l : list Task.doc,
    get_tasks s = (respond 200 (tasks_json l), s)
    ∧ length l = size (tasks s)
    ∧ ∀ t, t ∈ l ↔ ∃ k, tasks s !! k = Some t.
Proof.
  exists (map_to_list (tasks s)).*2. split_and!.
  - done.
  - by rewrite length_fmap, length_map_to_list.
  - intros t. rewrite list_elem_of_fmap. split.
    + intros ([k t'] & -> & Hin). exists k. by apply elem_of_map_to_list.
    + intros [k Hk]. exists (k, t). split; [done|].
      by apply elem_of_map_to_list.
Qed.

(** X11.  A Task that was created can be read back: after a creation
    answered 201, getting the identifier the store assigned answers 200
    with the very Task of the 201 answer, and the listing contains it. *)
Theorem created_task_can_be_read (body : JsValue) (id : jsstr) (s : Store) :
  status (post_tasks body s).1 = 201%Z →
  parse_oid id = Some (next_id s) →
  ∃ (d : Task.doc) (l : list Task.doc),
    (post_tasks body s).1 = respond 201 (task_json d)
    ∧ Task._id d = next_id s
    ∧ get_task id (post_tasks body s).2
      = (respond 200 (task_json d), (post_tasks body s).2)
    ∧ get_tasks (post_tasks body s).2
      = (respond 200 (tasks_json l), (post_tasks body s).2)
    ∧ d ∈ l.
Proof.
  intros Hst Hid.
  destruct (post_tasks_created body s) as [[_ Hne]|(t & b & _ & _ & ->)];
    [done|].
  set (d := {| Task._id := next_id s; Task.title := trim t;
               Task.completed := b |}).
  exists d. eexists. split_and!; [done..| | |].
  - rewrite get_task_finds by by apply (isValid_parse_oid id (next_id s)).
    rewrite (find_task_lookup id (next_id s) _ Hid). simpl.
    by rewrite lookup_insert_eq.
  - done.
  - simpl. apply list_elem_of_fmap. exists (next_id s, d). split; [done|].
    apply elem_of_map_to_list. by rewrite lookup_insert_eq.
Qed.

(** X13.  Listing the Sessions answers 200 with the stored Sessions, each
    once, every one paired with the Task its [taskId] refers to, or with
    nothing when no such Task is stored; the store is left as it was. *)
Theorem list_sessions_expands_references (s : Store) :
  ∃ l : list (Session.doc * option Task.doc),
    get_sessions s = (respond 200 (sessions_json l), s)
    ∧ length l = size (sessions s)
    ∧ ∀ d o, (d, o) ∈ l
             ↔ (∃ j, sessions s !! j = Some d)
               ∧ o = tasks s !! Session.taskId d.
Proof.
  eexists. split_and!; [done| |].
  - by rewrite !length_fmap, length_map_to_list.
  - intros d o. rewrite list_elem_of_fmap. split.
    + intros (d' & [= -> ->] & Hin). split; [|done].
      apply list_elem_of_fmap in Hin as ([j d''] & -> & Hin).
      exists j. by apply elem_of_map_to_list.
    + intros [[j Hj] ->]. exists d. split; [done|].
      apply list_elem_of_fmap. exists (j, d). split; [done|].
      by apply elem_of_map_to_list.
Qed.

(** X14.  Deleting a Task does not cascade: the Sessions are all kept, and
    a Session that referred to the deleted Task is then listed with its
    reference unresolved. *)
Theorem delete_task_keeps_its_sessions
    (id : jsstr) (k : ObjectId) (t : Task.doc) (j : N) (d : Session.doc)
    (s : Store) :
  parse_oid id = Some k →
  tasks s !! k = Some t →
  sessions s !! j = Some d →
  Session.taskId d = k →
  sessions (delete_task id s).2 = sessions s
  ∧ ∃ l,
      get_sessions (delete_task id s).2
      = (respond 200 (sessions_json l), (delete_task id s).2)
      ∧ (d, None) ∈ l.
Proof.
  intros Hk Ht Hj Hd.
  rewrite delete_task_deletes by by apply (isValid_parse_oid id k).
  rewrite (delete_task_lookup id k s Hk). unfold remove_task. rewrite Ht.
  simpl. split; [done|]. eexists. split; [done|].
  apply list_elem_of_fmap. exists d. simpl. rewrite Hd, lookup_delete_eq.
  split; [done|]. apply list_elem_of_fmap. exists (j, d). split; [done|].
  by apply elem_of_map_to_list.
Qed.

(** Every outcome of the creation of a Session. *)
Lemma post_sessions_cases (body : JsValue) (s : Store) :
  (post_sessions Number_toString body s).2 = s
  ∨ ∃ k x t b,
      is_Some (tasks s !! k)
      ∧ post_sessions Number_toString body s = session_created k x t b s.
Proof.
  destruct (nullish body) eqn:Hn.
  { left. apply post_sessions_rejected. by left. }
  destruct (truthy (prop body "taskId") && truthy (prop body "duration")
            && truthy (prop body "startTime")
            && isValid (prop body "taskId")) eqn:Hc.
  2: { left. apply post_sessions_rejected. by right. }
  apply andb_true_iff in Hc as [Hc Hv].
  apply andb_true_iff in Hc as [Hc Ht].
  apply andb_true_iff in Hc as [Hid Hd].
  destruct (prop body "taskId") as [| | | |tid| |] eqn:Htid; try done.
  simpl in Hv. apply bool_decide_eq_true in Hv as [k Hk].
  destruct (tasks s !! k) as [task|] eqn:Hl.
  2: { left. apply post_sessions_absent; rewrite ?Htid; try done.
       - simpl. by rewrite Hk.
       - by rewrite (find_task_lookup tid k s Hk), Hl. }
  rewrite (post_sessions_saves Number_toString body s s task);
    rewrite ?Htid; try done.
  2: { simpl. by rewrite Hk. }
  2: { by rewrite (find_task_lookup tid k s Hk), Hl. }
  simpl. unfold store_save_session. unfold_handler. simpl. rewrite Hk.
  destruct (cast_duration (prop body "duration")) as [x|e]; [|by left].
  destruct (cast_startTime (prop body "startTime")) as [st|e]; [|by left].
  destruct (cast_completed "Session" _) as [b|e]; [|by left].
  right. exists k, x, st, b. by rewrite Hl.
Qed.

Lemma get_task_store (id : jsstr) (s : Store) : (get_task id s).2 = s.
Proof.
  destruct (parse_oid id) as [k|] eqn:Hk.
  - rewrite get_task_finds by by apply (isValid_parse_oid id k).
    rewrite (find_task_lookup id k s Hk). by destruct (tasks s !! k).
  - by rewrite get_task_invalid_id by by apply isValid_parse_oid_None.
Qed.

Lemma handle_references (req : Request) (s : Store) :
  deletes_a_task req = false →
  references_resolve s →
  references_resolve (handle Number_toString req s).2.
Proof.
  intros Hreq Hs.
  destruct req as [body| |id|id updates|id|body|]; simpl handle; try done.
  - destruct (post_tasks_created body s) as [[-> _]|(t & b & _ & _ & ->)];
      [done|].
    intros j d Hj. simpl in *. apply lookup_insert_is_Some'. right.
    by apply (Hs j d).
  - by rewrite get_task_store.
  - destruct (put_task_cases id updates s)
      as [[-> _]|(k & t & t' & _ & _ & _ & _ & ->)]; [done|].
    intros j d Hj. simpl in *. apply lookup_insert_is_Some'. right.
    by apply (Hs j d).
  - destruct (post_sessions_cases body s)
      as [->|(k & x & t & b & Hk & ->)]; [done|].
    intros j d. simpl. intros Hj.
    apply lookup_insert_Some in Hj as [[_ <-]|[_ Hj]]; [done|].
    by apply (Hs j d).
Qed.

(** X16.  As long as no Task is deleted, references stay whole: after any
    sequence of requests without a delete, every stored Session refers to
    a stored Task, since a Session is only stored once its Task was
    found. *)
Theorem references_resolve_without_deletes
    (rs : list Request) (s : Store) :
  forallb (λ req, negb (deletes_a_task req)) rs = true →
  references_resolve s →
  references_resolve (handle_all Number_toString rs s).
Proof.
  revert s. induction rs as [|req rs IH]; intros s Hrs Hs; [done|].
  simpl in Hrs. apply andb_true_iff in Hrs as [Hreq Hrs].
  simpl. apply IH; [done|]. apply handle_references; [|done].
  by destruct (deletes_a_task req).
Qed.

End StoreFacts.

(** ** The further properties on the scenario *)

Section WalkthroughFacts.
Import MemStore Integrity Scenario Walkthrough.

Lemma malformed_id_is_answered_first_witness :
  isValid (JStr not_an_id) = false
  ∧ put_task not_an_id (title_only "  ") one_task
    = (respond 404 (error_json (lit "Task not found")
                               (lit "Invalid task ID format")), one_task)
  ∧ put_task not_an_id JUndefined one_task
    = (respond 404 (error_json (lit "Task not found")
                               (lit "Invalid task ID format")), one_task).
Proof.
  destruct (@malformed_id_is_answered_first Store MemStore.mongoose
              not_an_id one_task eq_refl) as (_ & Hput & _).
  split_and!; [reflexivity|apply Hput..].
Defined.

Lemma create_session_first_missing_field_witness :
  post_sessions no_numbers (obj [("duration"%string, JNum 0)]) one_task
  = (respond 400 (error_json (lit "Validation error")
                             (lit "Task ID is required")), one_task)
  ∧ post_sessions no_numbers (obj [("taskId"%string, JStr X)]) one_task
    = (respond 400 (error_json (lit "Validation error")
                               (lit "Duration is required")), one_task)
  ∧ post_sessions no_numbers
      (obj [("taskId", JStr X); ("duration", JNum 25)]%string) one_task
    = (respond 400 (error_json (lit "Validation error")
                               (lit "Start time is required")), one_task).
Proof.
  split_and!.
  - destruct (@create_session_first_missing_field Store MemStore.mongoose
                no_numbers
                (obj [("duration"%string, JNum 0)]) one_task eq_refl)
      as (H & _ & _).
    exact (H eq_refl).
  - destruct (@create_session_first_missing_field Store MemStore.mongoose
                no_numbers
                (obj [("taskId"%string, JStr X)]) one_task eq_refl)
      as (_ & H & _).
    exact (H eq_refl eq_refl).
  - destruct (@create_session_first_missing_field Store MemStore.mongoose
                no_numbers
                (obj [("taskId", JStr X); ("duration", JNum 25)]%string)
                one_task eq_refl)
      as (_ & _ & H).
    exact (H eq_refl eq_refl eq_refl).
Defined.

Lemma create_task_falsy_completed_witness :
  post_tasks (obj [("title", JStr (lit "Read")); ("completed", JNull)]%string)
    one_task
  = post_tasks (title_only "Read") one_task.
Proof.
  apply create_task_falsy_completed; reflexivity.
Defined.

Lemma create_task_title_normalised_witness :
  post_tasks (title_only "  Write spec ") one_task
  = post_tasks (title_only "Write spec") one_task.
Proof.
  apply (create_task_title_normalised _ _ (lit "  Write spec "));
    reflexivity.
Defined.

Lemma task_write_exceptions_witness :
  post_tasks
    (obj [("title", JStr (lit "Read"));
          ("completed", JStr (lit "yes"))]%string) one_task
  = (respond 400
       (error_json (lit "Validation error")
                   (lit "Task validation failed: completed")), one_task)
  ∧ put_task X (obj [("completed"%string, JStr (lit "yes"))]) one_task
    = (respond 400
         (error_json (lit "Validation error")
                     (lit "Task validation failed: completed")), one_task).
Proof.
  destruct (@task_write_exceptions Store MemStore.mongoose
              one_task one_task
              (ValidationError (lit "Task validation failed: completed")))
    as [Hcreate Hupdate].
  split.
  - apply (Hcreate _ (lit "Read")); reflexivity.
  - apply (Hupdate X); [reflexivity..|left|]; reflexivity.
Defined.

Lemma read_and_delete_exceptions_witness :
  let answer :=
    respond 500 (error_json (lit "Server error")
                            (message Offline.timed_out)) in
  @get_tasks unit Offline.mongoose tt = (answer, tt)
  ∧ @get_task unit Offline.mongoose X tt = (answer, tt)
  ∧ @delete_task unit Offline.mongoose X tt = (answer, tt)
  ∧ @get_sessions unit Offline.mongoose tt = (answer, tt).
Proof.
  destruct (@read_and_delete_exceptions unit Offline.mongoose tt tt
              Offline.timed_out) as (Hlist & Hget & Hdelete & Hsessions).
  split_and!.
  - exact (Hlist eq_refl).
  - exact (Hget X eq_refl eq_refl).
  - exact (Hdelete X eq_refl eq_refl).
  - exact (Hsessions eq_refl).
Defined.

Lemma create_session_completed_default_witness :
  post_sessions no_numbers session_ok one_task
  = post_sessions no_numbers
      (obj [("taskId", JStr X); ("duration", JNum 25);
            ("startTime", start); ("completed", JBool true)]%string)
      one_task.
Proof.
  apply create_session_completed_default; reflexivity.
Defined.

Lemma created_task_can_be_read_witness :
  ∃ (d : Task.doc) (l : list Task.doc),
    (post_tasks (title_only "  Write spec ") initial).1
    = respond 201 (task_json d)
    ∧ Task._id d = 0%N
    ∧ get_task X (post_tasks (title_only "  Write spec ") initial).2
      = (respond 200 (task_json d),
         (post_tasks (title_only "  Write spec ") initial).2)
    ∧ get_tasks (post_tasks (title_only "  Write spec ") initial).2
      = (respond 200 (tasks_json l),
         (post_tasks (title_only "  Write spec ") initial).2)
    ∧ d ∈ l.
Proof.
  exact (created_task_can_be_read (title_only "  Write spec ") X initial
           eq_refl eq_refl).
Defined.

Lemma delete_task_keeps_its_sessions_witness :
  sessions (delete_task X one_session).2 = sessions one_session
  ∧ ∃ l,
      get_sessions (delete_task X one_session).2
      = (respond 200 (sessions_json l), (delete_task X one_session).2)
      ∧ (pomodoro, None) ∈ l.
Proof.
  exact (delete_task_keeps_its_sessions X 0%N write_spec 1%N pomodoro
           one_session eq_refl eq_refl eq_refl eq_refl).
Defined.

Lemma references_resolve_without_deletes_witness :
  references_resolve initial
  ∧ references_resolve (handle_all no_numbers requests initial).
Proof.
  assert (references_resolve initial) as Hinit.
  { apply (bool_decide_unpack _). vm_compute. exact I. }
  split; [exact Hinit|].
  exact (references_resolve_without_deletes no_numbers requests initial
           eq_refl Hinit).
Defined.

End WalkthroughFacts.
